(** * ocpapi.client.client: request execution and failure classification

    A shallow embedding of [src/ocpapi/client/client.py]: the exception
    classes, the [Client] constructor, the eight endpoint methods and
    [_run_request], followed by the properties of the classification and of
    the requests the endpoints build.

    Python [str] values are [string]s (sequences of characters; header values
    are latin-1 text, one character per byte), [int] is [Z], [Optional[T]] is
    [option T], a raised exception is an explicit result. *)

From Stdlib Require Import ZArith NArith List Bool Lia.
From Stdlib Require Import Ascii String DecimalString.
Import ListNotations.

Local Open Scope string_scope.
Local Open Scope Z_scope.

(** ** Python strings *)

Module PyStr.

(** [str(n)] for an [int], which is what an f-string field [{n}] inserts. *)
Definition str_of_int (n : Z) : string :=
  NilZero.string_of_int (Z.to_int n).

(** [sub in s]. *)
Fixpoint contains (sub s : string) : bool :=
  String.prefix sub s ||
  match s with
  | EmptyString => false
  | String _ s' => contains sub s'
  end.

(** [c in chars] for a single character. *)
Fixpoint mem_char (c : ascii) (chars : string) : bool :=
  match chars with
  | EmptyString => false
  | String d chars' => Ascii.eqb c d || mem_char c chars'
  end.

Definition is_empty (s : string) : bool :=
  match s with
  | EmptyString => true
  | String _ _ => false
  end.

(** Removal of the trailing characters that satisfy [p]: the longest prefix
    of [s] whose last character, if any, does not satisfy [p]. *)
Fixpoint rstrip_by (p : ascii -> bool) (s : string) : string :=
  match s with
  | EmptyString => EmptyString
  | String c s' =>
      let r := rstrip_by p s' in
      if is_empty r && p c then EmptyString else String c r
  end.

Fixpoint lstrip_by (p : ascii -> bool) (s : string) : string :=
  match s with
  | EmptyString => EmptyString
  | String c s' => if p c then lstrip_by p s' else s
  end.

(** [s.rstrip(chars)]. *)
Definition rstrip (chars s : string) : string :=
  rstrip_by (fun c => mem_char c chars) s.

(** [chars * n] for a one-character string. *)
Fixpoint replicate (n : nat) (c : ascii) : string :=
  match n with
  | O => EmptyString
  | S n' => String c (replicate n' c)
  end.

(** ASCII lower-casing, as [str.lower] acts on latin-1 header names made of
    ASCII letters. *)
Definition lower_char (c : ascii) : ascii :=
  let n := nat_of_ascii c in
  if (Nat.leb 65 n && Nat.leb n 90)%bool then ascii_of_nat (n + 32) else c.

Fixpoint lower (s : string) : string :=
  match s with
  | EmptyString => EmptyString
  | String c s' => String (lower_char c) (lower s')
  end.

End PyStr.

(** ** The builtins [float] and [timedelta]

    [_run_request] evaluates [timedelta(seconds=float(retry_after))].  The
    builtin [float] applied to a [str] either returns a float or raises
    [ValueError]; which of the two happens is decided by the grammar below.
    The float that is returned is represented by the decimal value of its
    literal, [(-1)^negative * mantissa * 10^exp10]; rounding to binary64 and
    the arithmetic of [timedelta] belong to the consumer (see
    [timedelta_seconds] in [Collaborators]). *)

Inductive BuiltinError : Type :=
| ValueError
| OverflowError.

Module PyFloat.

Inductive pyfloat : Type :=
| Nan (negative : bool)
| Inf (negative : bool)
| Dec (negative : bool) (mantissa : N) (exp10 : Z).

Definition code (c : ascii) : nat := nat_of_ascii c.

Definition is_digit (c : ascii) : bool :=
  (Nat.leb 48 (code c) && Nat.leb (code c) 57)%bool.

Definition digit_value (c : ascii) : N := N.of_nat (code c - 48).

(** ASCII white space: TAB, LF, VT, FF, CR and SPACE. *)
Definition is_ascii_space (c : ascii) : bool :=
  ((Nat.leb 9 (code c) && Nat.leb (code c) 13) || Nat.eqb (code c) 32)%bool.

(** Characters above U+007E are first turned into ASCII: a Unicode space
    (U+0085 and U+00A0 in latin-1) becomes a blank; no other latin-1
    character above U+007E is a decimal digit, so each becomes [?] and the
    conversion fails on it. *)
Definition to_ascii_char (c : ascii) : ascii :=
  if Nat.ltb (code c) 127 then c
  else if (Nat.eqb (code c) 133 || Nat.eqb (code c) 160)%bool then " "%char
  else "?"%char.

Fixpoint to_ascii (s : string) : string :=
  match s with
  | EmptyString => EmptyString
  | String c s' => String (to_ascii_char c) (to_ascii s')
  end.

Definition is_underscore (c : ascii) : bool := Ascii.eqb c "_"%char.

(** Digit-group underscores: one is allowed only between two digits.
    [prev] is the previous character, if any. *)
Fixpoint drop_underscores (prev : option ascii) (s : string) : option string :=
  match s with
  | EmptyString =>
      match prev with
      | Some p => if is_underscore p then None else Some EmptyString
      | None => Some EmptyString
      end
  | String c s' =>
      if is_underscore c then
        match prev with
        | Some p => if is_digit p then drop_underscores (Some c) s' else None
        | None => None
        end
      else
        match prev with
        | Some p =>
            if (is_underscore p && negb (is_digit c))%bool then None
            else option_map (String c) (drop_underscores (Some c) s')
        | None => option_map (String c) (drop_underscores (Some c) s')
        end
  end.

Definition strip (s : string) : string :=
  PyStr.lstrip_by is_ascii_space (PyStr.rstrip_by is_ascii_space s).

(** An optional sign: [(negative, rest)]. *)
Definition read_sign (s : string) : bool * string :=
  match s with
  | String "-" s' => (true, s')
  | String "+" s' => (false, s')
  | _ => (false, s)
  end.

(** A maximal run of digits: its value appended to [acc], the number of
    digits read, and the rest. *)
Fixpoint read_digits (acc : N) (count : nat) (s : string) : N * nat * string :=
  match s with
  | String c s' =>
      if is_digit c
      then read_digits (10 * acc + digit_value c)%N (S count) s'
      else (acc, count, s)
  | EmptyString => (acc, count, s)
  end.

(** An optional exponent part [e[+-]digits]; [None] when an [e] is not
    followed by such digits or when characters are left over. *)
Definition read_exponent (s : string) : option Z :=
  match s with
  | EmptyString => Some 0
  | String c s' =>
      if (Ascii.eqb c "e" || Ascii.eqb c "E")%bool then
        let '(neg, s1) := read_sign s' in
        match read_digits 0%N 0%nat s1 with
        | (_, O, _) => None
        | (e, S _, EmptyString) =>
            Some (if neg then - Z.of_N e else Z.of_N e)
        | (_, S _, String _ _) => None
        end
      else None
  end.

(** [[digits] [. digits] [exponent]] with at least one digit before the
    exponent. *)
Definition read_decimal (neg : bool) (s : string) : option pyfloat :=
  let '(m1, n1, s1) := read_digits 0%N 0%nat s in
  let '(m2, n2, s2) :=
    match s1 with
    | String "." s1' =>
        let '(m, n, r) := read_digits m1 0%nat s1' in (m, n, r)
    | _ => (m1, 0%nat, s1)
    end in
  match (n1 + n2)%nat with
  | O => None
  | S _ =>
      match read_exponent s2 with
      | Some e => Some (Dec neg m2 (e - Z.of_nat n2))
      | None => None
      end
  end.

Definition read_number (s : string) : option pyfloat :=
  let '(neg, body) := read_sign s in
  let word := PyStr.lower body in
  if (String.eqb word "inf" || String.eqb word "infinity")%bool then Some (Inf neg)
  else if String.eqb word "nan" then Some (Nan neg)
  else read_decimal neg body.

(** [float(s)] for a [str]: the float, or [ValueError]. *)
Definition float (s : string) : BuiltinError + pyfloat :=
  match drop_underscores None (to_ascii s) with
  | None => inl ValueError
  | Some t =>
      match read_number (strip t) with
      | Some x => inr x
      | None => inl ValueError
      end
  end.

End PyFloat.


(** ** Exceptions *)

(** The classes that [asyncio] singles out, by [type(e) is ...], when it
    hands the exception of a worker thread to the awaiting coroutine. *)
Inductive PyClass : Type :=
| IsStopIteration
| IsFuturesCancelledError
| IsAnotherClass.

(** An exception raised by a collaborator (the HTTP transport, a decoder):
    [type(e).__name__], [str(e)], whether its class derives from
    [Exception] (as opposed to [BaseException] only), which is what
    [except Exception] tests, and whether its class is exactly
    [StopIteration] or [concurrent.futures.CancelledError]. *)
Record PyException : Type := {
  exc_type_name : string;
  exc_str : string;
  exc_is_Exception : bool;
  exc_class : PyClass
}.

(** What the coroutine that awaits [asyncio.to_thread(f, ...)] receives when
    [f] raised [e] on its thread.  The exception goes through
    [_convert_future_exc] and [Future.set_exception]:
    [concurrent.futures.CancelledError] is replaced by
    an [asyncio.CancelledError] with the same arguments, which derives
    from [BaseException] only; [StopIteration] is refused by [set_exception], so the awaited
    future is never completed ([None]); every other exception arrives as it
    is (the [asyncio] counterparts of [concurrent.futures.TimeoutError] and
    [InvalidStateError] have the same name, arguments and base class). *)
Definition awaited_exception (e : PyException) : option PyException :=
  match exc_class e with
  | IsStopIteration => None
  | IsFuturesCancelledError =>
      Some {| exc_type_name := "CancelledError"; exc_str := exc_str e;
              exc_is_Exception := false; exc_class := IsAnotherClass |}
  | IsAnotherClass => Some e
  end.

(** JSON-serialisable values, as [json.dumps] receives them. *)
#[warnings="-register-all"]
Inductive Json : Type :=
| JNull
| JBool (b : bool)
| JInt (n : Z)
| JStr (s : string)
| JList (items : list Json)
| JDict (items : list (string * Json)).

(** What [client.py] imports and does not define: [datetime.timedelta],
    [json.dumps], and the classes of [.models] with the methods the client
    calls on them. *)
Class Collaborators : Type := {
  timedelta : Type;
  (** [timedelta(seconds=x)] for a float [x]; raises on NaN, on infinities
      and on a magnitude of more than 999999999 days. *)
  timedelta_seconds : PyFloat.pyfloat -> BuiltinError + timedelta;
  json_dumps : Json -> string;
  Bulk : Type;
  src_id : Bulk -> string;
  Bulk_to_dict : Bulk -> Json;
  Slab : Type;
  Slab_to_dict : Slab -> Json;
  Atoms : Type;
  Atoms_to_dict : Atoms -> Json;
  Model : Type;
  Model_str : Model -> string;
  Bulks : Type;
  Bulks_from_json : string -> PyException + Bulks;
  Adsorbates : Type;
  Adsorbates_from_json : string -> PyException + Adsorbates;
  Slabs : Type;
  Slabs_from_json : string -> PyException + Slabs;
  AdsorbateSlabConfigs : Type;
  AdsorbateSlabConfigs_from_json : string -> PyException + AdsorbateSlabConfigs;
  AdsorbateSlabRelaxationsSystem : Type;
  AdsorbateSlabRelaxationsSystem_from_json :
    string -> PyException + AdsorbateSlabRelaxationsSystem;
  AdsorbateSlabRelaxationsRequest : Type;
  AdsorbateSlabRelaxationsRequest_from_json :
    string -> PyException + AdsorbateSlabRelaxationsRequest;
  AdsorbateSlabRelaxationsResults : Type;
  AdsorbateSlabRelaxationsResults_from_json :
    string -> PyException + AdsorbateSlabRelaxationsResults
}.

Section Exceptions.
Context `{Collaborators}.

(** The three exception classes of the module.  Each carries the message
    given to [Exception.__init__]; [RateLimitExceededException] also has
    the attribute [retry_after]. *)
Inductive ApiException : Type :=
| IsRequestException (message : string)
| IsNonRetryableRequestException (message : string)
| IsRateLimitExceededException (message : string)
                               (retry_after : option timedelta).

Definition message (e : ApiException) : string :=
  match e with
  | IsRequestException m => m
  | IsNonRetryableRequestException m => m
  | IsRateLimitExceededException m _ => m
  end.

(** The f-string of [RequestException.__init__]. *)
Definition request_failed (method url cause : string) : string :=
  "Request to " ++ method ++ " " ++ url ++ " failed. " ++ cause.

Definition RequestException (method url cause : string) : ApiException :=
  IsRequestException (request_failed method url cause).

Definition NonRetryableRequestException (method url cause : string)
  : ApiException :=
  IsNonRetryableRequestException (request_failed method url cause).

Definition RateLimitExceededException (method url : string)
    (retry_after : option timedelta) : ApiException :=
  IsRateLimitExceededException
    (request_failed method url "Exceeded rate limit") retry_after.

(** Everything that can leave a call of this module by [raise]. *)
Inductive Raised : Type :=
| Api (e : ApiException)
| Builtin (e : BuiltinError)
| Foreign (e : PyException).

End Exceptions.

(** ** Requests, responses and the transport *)

(** A value of the [params] dictionary: a list of ints or of strs. *)
Inductive ParamValue : Type :=
| IntList (l : list Z)
| StrList (l : list string).

(** A [dict] with [str] keys, in insertion order. *)
Module Dict.

Definition t (V : Type) : Type := list (string * V).

Definition empty {V : Type} : t V := [].

Fixpoint get {V : Type} (k : string) (d : t V) : option V :=
  match d with
  | [] => None
  | (k', v) :: d' => if String.eqb k k' then Some v else get k d'
  end.

(** [d[k] = v]: replaces the value in place, or appends a new item. *)
Fixpoint set {V : Type} (k : string) (v : V) (d : t V) : t V :=
  match d with
  | [] => [(k, v)]
  | (k', v') :: d' =>
      if String.eqb k k' then (k', v) :: d' else (k', v') :: set k v d'
  end.

End Dict.

(** The keyword arguments the endpoints pass through [_run_request] to
    [requests.request]; [None] is an argument that is not passed. *)
Module Kwargs.

Record t : Type := {
  params : option (Dict.t ParamValue);
  data : option string;
  headers : option (Dict.t string)
}.

Definition none : t := {| params := None; data := None; headers := None |}.

End Kwargs.

(** One call of [requests.request]. *)
Module Request.

Record t : Type := {
  method : string;
  url : string;
  kwargs : Kwargs.t
}.

End Request.

(** The part of [requests.Response] that the client reads. *)
Module Response.

Record t : Type := {
  status_code : Z;
  headers : list (string * string);
  text : string
}.

(** [response.headers.get(name, None)]; the mapping is case-insensitive in
    the header name. *)
Fixpoint headers_get (name : string) (h : list (string * string))
  : option string :=
  match h with
  | [] => None
  | (k, v) :: h' =>
      if String.eqb (PyStr.lower k) (PyStr.lower name) then Some v
      else headers_get name h'
  end.

End Response.

(** The HTTP transport, [requests.request]: a response, or an exception. *)
Definition Adapter : Type := Request.t -> PyException + Response.t.

(** ** Coroutines

    An [async def] is run against a transport.  Its result records the
    requests handed to [requests.request], in order, and how the call ended:
    with a value, with a raised exception, or not at all (an [await] that is
    never resumed).  The thread on which [asyncio.to_thread] runs the
    transport and the scheduling of the event loop are not part of this
    result. *)

Section Coroutines.
Context `{Collaborators}.

Inductive Outcome (A : Type) : Type :=
| Return (a : A)
| Raise (r : Raised)
| NeverCompletes.

Record Run (A : Type) : Type := {
  dispatched : list Request.t;
  outcome : Outcome A
}.

Definition Async (A : Type) : Type := Adapter -> Run A.

Definition ret {A : Type} (a : A) : Async A :=
  fun _ => {| dispatched := []; outcome := Return A a |}.

Definition raise {A : Type} (r : Raised) : Async A :=
  fun _ => {| dispatched := []; outcome := Raise A r |}.

Definition bind {A B : Type} (m : Async A) (k : A -> Async B) : Async B :=
  fun adapter =>
    let r := m adapter in
    match outcome A r with
    | Return _ a =>
        let r' := k a adapter in
        {| dispatched := dispatched A r ++ dispatched B r';
           outcome := outcome B r' |}
    | Raise _ e => {| dispatched := dispatched A r; outcome := Raise B e |}
    | NeverCompletes _ =>
        {| dispatched := dispatched A r; outcome := NeverCompletes B |}
    end.

(** A builtin that returns or raises. *)
Definition builtin {A : Type} (x : BuiltinError + A) : Async A :=
  match x with
  | inl e => raise (Builtin e)
  | inr a => ret a
  end.

(** A [from_json] decoder that returns or raises. *)
Definition decode {A : Type} (x : PyException + A) : Async A :=
  match x with
  | inl e => raise (Foreign e)
  | inr a => ret a
  end.

(** [await asyncio.to_thread(requests.request, method=, url=, **kwargs)]
    inside a [try]: the response of the transport, or the exception that
    the [await] raises when the transport raised one, or no completion. *)
Definition to_thread_request (method url : string) (kwargs : Kwargs.t)
  : Async (PyException + Response.t) :=
  fun adapter =>
    let request :=
      {| Request.method := method; Request.url := url;
         Request.kwargs := kwargs |} in
    {| dispatched := [request];
       outcome :=
         match adapter request with
         | inr response => Return _ (inr response)
         | inl e =>
             match awaited_exception e with
             | Some e' => Return _ (inl e')
             | None => NeverCompletes _
             end
         end |}.

End Coroutines.

Arguments Return {_ A} a.
Arguments Raise {_ A} r.
Arguments NeverCompletes {_ A}.
Arguments dispatched {_ A} r.
Arguments outcome {_ A} r.

Notation "x <- m ;; k" := (bind m (fun x => k))
  (at level 61, m at next level, right associativity).

(** ** The client *)

Section Client.
Context `{Collaborators}.

Record Client : Type := { _base_url : string }.

Definition default_base_url : string :=
  "https://open-catalyst-api.metademolab.com/ocp/".

(** [Client.__init__]: the base URL is stored without trailing [/]. *)
Definition __init__ (base_url : string) : Client :=
  {| _base_url := PyStr.rstrip "/" base_url |}.

(** The f-string [cause] of the non-429 branches. *)
Definition unexpected_response (response : Response.t) : string :=
  "Unexpected response code: "
    ++ PyStr.str_of_int (Response.status_code response)
    ++ ". Response body: " ++ Response.text response.

(** The f-string [cause] of the [except] branch. *)
Definition exception_while_making_request (e : PyException) : string :=
  "Exception while making request: "
    ++ exc_type_name e ++ ": " ++ exc_str e.

Definition _run_request (url method : string) (kwargs : Kwargs.t)
  : Async string :=
  attempt <- to_thread_request method url kwargs ;;
  match attempt with
  | inl e =>
      (* except Exception as e *)
      if exc_is_Exception e
      then raise (Api (RequestException method url
                         (exception_while_making_request e)))
      else raise (Foreign e)
  | inr response =>
      if 300 <=? Response.status_code response then
        if Response.status_code response =? 429 then
          let retry_after :=
            Response.headers_get "Retry-After" (Response.headers response) in
          match retry_after with
          | Some v =>
              seconds <- builtin (PyFloat.float v) ;;
              delta <- builtin (timedelta_seconds seconds) ;;
              raise (Api (RateLimitExceededException method url (Some delta)))
          | None =>
              raise (Api (RateLimitExceededException method url None))
          end
        else
          let cause := unexpected_response response in
          if (400 <=? Response.status_code response)
             && (Response.status_code response <? 500)
          then raise (Api (NonRetryableRequestException method url cause))
          else raise (Api (RequestException method url cause))
      else ret (Response.text response)
  end.

(** [headers={"Content-Type": "application/json"}]. *)
Definition json_headers : option (Dict.t string) :=
  Some [("Content-Type", "application/json")].

Definition get_bulks (self : Client) : Async Bulks :=
  response <- _run_request (_base_url self ++ "/bulks") "GET" Kwargs.none ;;
  decode (Bulks_from_json response).

Definition get_adsorbates (self : Client) : Async Adsorbates :=
  response <-
    _run_request (_base_url self ++ "/adsorbates") "GET" Kwargs.none ;;
  decode (Adsorbates_from_json response).

(** [Union[str, Bulk]]. *)
Inductive str_or_Bulk : Type :=
| a_str (s : string)
| a_Bulk (b : Bulk).

Definition get_slabs (self : Client) (bulk : str_or_Bulk) : Async Slabs :=
  response <-
    _run_request (_base_url self ++ "/slabs") "POST"
      {| Kwargs.params := None;
         Kwargs.data :=
           Some (json_dumps
                   (JDict [("bulk_src_id",
                            JStr match bulk with
                                 | a_Bulk b => src_id b
                                 | a_str s => s
                                 end)]));
         Kwargs.headers := json_headers |} ;;
  decode (Slabs_from_json response).

Definition get_adsorbate_slab_configs (self : Client) (adsorbate : string)
    (slab : Slab) : Async AdsorbateSlabConfigs :=
  response <-
    _run_request (_base_url self ++ "/adsorbate-slab-configs") "POST"
      {| Kwargs.params := None;
         Kwargs.data :=
           Some (json_dumps
                   (JDict [("adsorbate", JStr adsorbate);
                           ("slab", Slab_to_dict slab)]));
         Kwargs.headers := json_headers |} ;;
  decode (AdsorbateSlabConfigs_from_json response).

Definition submit_adsorbate_slab_relaxations (self : Client)
    (adsorbate : string) (adsorbate_configs : list Atoms) (bulk : Bulk)
    (slab : Slab) (model : Model) (ephemeral : bool)
  : Async AdsorbateSlabRelaxationsSystem :=
  response <-
    _run_request (_base_url self ++ "/adsorbate-slab-relaxations") "POST"
      {| Kwargs.params := None;
         Kwargs.data :=
           Some (json_dumps
                   (JDict [("adsorbate", JStr adsorbate);
                           ("adsorbate_configs",
                            JList (map Atoms_to_dict adsorbate_configs));
                           ("bulk", Bulk_to_dict bulk);
                           ("slab", Slab_to_dict slab);
                           ("model", JStr (Model_str model));
                           ("ephemeral", JBool ephemeral)]));
         Kwargs.headers := json_headers |} ;;
  decode (AdsorbateSlabRelaxationsSystem_from_json response).

Definition get_adsorbate_slab_relaxations_request (self : Client)
    (system_id : string) : Async AdsorbateSlabRelaxationsRequest :=
  response <-
    _run_request
      (_base_url self ++ "/adsorbate-slab-relaxations/" ++ system_id)
      "GET" Kwargs.none ;;
  decode (AdsorbateSlabRelaxationsRequest_from_json response).

(** The [params] dictionary of the results endpoint: [if fields:] and
    [if config_ids:] hold for a list that is neither [None] nor empty. *)
Definition results_params (config_ids : option (list Z))
    (fields : option (list string)) : Dict.t ParamValue :=
  let params := Dict.empty in
  let params :=
    match fields with
    | Some ((_ :: _) as l) => Dict.set "field" (StrList l) params
    | _ => params
    end in
  let params :=
    match config_ids with
    | Some ((_ :: _) as l) => Dict.set "config_id" (IntList l) params
    | _ => params
    end in
  params.

Definition get_adsorbate_slab_relaxations_results (self : Client)
    (system_id : string) (config_ids : option (list Z))
    (fields : option (list string))
  : Async AdsorbateSlabRelaxationsResults :=
  let params := results_params config_ids fields in
  response <-
    _run_request
      (_base_url self ++ "/adsorbate-slab-relaxations/" ++ system_id
         ++ "/configs")
      "GET"
      {| Kwargs.params := Some params; Kwargs.data := None;
         Kwargs.headers := None |} ;;
  decode (AdsorbateSlabRelaxationsResults_from_json response).

Definition delete_adsorbate_slab_relaxations (self : Client)
    (system_id : string) : Async unit :=
  _ <-
    _run_request
      (_base_url self ++ "/adsorbate-slab-relaxations/" ++ system_id)
      "DELETE" Kwargs.none ;;
  ret tt.

End Client.

(** ** Sample collaborators

    A concrete instance on which the model runs.  A [timedelta] is kept as
    the number of seconds it was built from, the range check on days is left
    out; [json.dumps] writes strings without escaping; a bulk is its
    [src_id]; decoders return the body unchanged and reject an empty one. *)

Module Sample.

Definition quote : string := String (ascii_of_nat 34) EmptyString.

Fixpoint dumps (j : Json) : string :=
  match j with
  | JNull => "null"
  | JBool true => "true"
  | JBool false => "false"
  | JInt n => PyStr.str_of_int n
  | JStr s => quote ++ s ++ quote
  | JList items =>
      "[" ++
      (fix go (l : list Json) : string :=
         match l with
         | [] => ""
         | [x] => dumps x
         | x :: l' => dumps x ++ ", " ++ go l'
         end) items
      ++ "]"
  | JDict items =>
      "{" ++
      (fix go (l : list (string * Json)) : string :=
         match l with
         | [] => ""
         | [(k, v)] => quote ++ k ++ quote ++ ": " ++ dumps v
         | (k, v) :: l' => quote ++ k ++ quote ++ ": " ++ dumps v ++ ", " ++ go l'
         end) items
      ++ "}"
  end.

Definition seconds (x : PyFloat.pyfloat) : BuiltinError + PyFloat.pyfloat :=
  match x with
  | PyFloat.Nan _ => inl ValueError
  | PyFloat.Inf _ => inl OverflowError
  | PyFloat.Dec _ _ _ => inr x
  end.

Definition from_json (body : string) : PyException + string :=
  if PyStr.is_empty body
  then inl {| exc_type_name := "JSONDecodeError";
              exc_str := "Expecting value: line 1 column 1 (char 0)";
              exc_is_Exception := true; exc_class := IsAnotherClass |}
  else inr body.

#[export] Instance collaborators : Collaborators := {|
  timedelta := PyFloat.pyfloat;
  timedelta_seconds := seconds;
  json_dumps := dumps;
  Bulk := string;
  src_id := fun b => b;
  Bulk_to_dict := fun b => JDict [("src_id", JStr b)];
  Slab := unit;
  Slab_to_dict := fun _ => JDict [];
  Atoms := unit;
  Atoms_to_dict := fun _ => JDict [];
  Model := string;
  Model_str := fun m => m;
  Bulks := string;
  Bulks_from_json := from_json;
  Adsorbates := string;
  Adsorbates_from_json := from_json;
  Slabs := string;
  Slabs_from_json := from_json;
  AdsorbateSlabConfigs := string;
  AdsorbateSlabConfigs_from_json := from_json;
  AdsorbateSlabRelaxationsSystem := string;
  AdsorbateSlabRelaxationsSystem_from_json := from_json;
  AdsorbateSlabRelaxationsRequest := string;
  AdsorbateSlabRelaxationsRequest_from_json := from_json;
  AdsorbateSlabRelaxationsResults := string;
  AdsorbateSlabRelaxationsResults_from_json := from_json
|}.

Definition response (status : Z) (headers : list (string * string))
    (body : string) : Response.t :=
  {| Response.status_code := status; Response.headers := headers;
     Response.text := body |}.

(** A transport that answers every request with the same response. *)
Definition responds (status : Z) (headers : list (string * string))
    (body : string) : Adapter :=
  fun _ => inr (response status headers body).

(** An instance of a subclass of [Exception] that [asyncio] does not
    single out. *)
Definition exception (type_name description : string) : PyException :=
  {| exc_type_name := type_name; exc_str := description;
     exc_is_Exception := true; exc_class := IsAnotherClass |}.

(** [KeyboardInterrupt()], which derives from [BaseException] only. *)
Definition keyboard_interrupt : PyException :=
  {| exc_type_name := "KeyboardInterrupt"; exc_str := "";
     exc_is_Exception := false; exc_class := IsAnotherClass |}.

(** [concurrent.futures.CancelledError(description)]. *)
Definition futures_cancelled (description : string) : PyException :=
  {| exc_type_name := "CancelledError"; exc_str := description;
     exc_is_Exception := true; exc_class := IsFuturesCancelledError |}.

(** [StopIteration(description)]. *)
Definition stop_iteration (description : string) : PyException :=
  {| exc_type_name := "StopIteration"; exc_str := description;
     exc_is_Exception := true; exc_class := IsStopIteration |}.

(** A transport that raises [e] on every request. *)
Definition raises (e : PyException) : Adapter := fun _ => inl e.

(** A transport that fails on every request. *)
Definition fails (type_name description : string) : Adapter :=
  raises (exception type_name description).

Definition client : Client := __init__ default_base_url.

End Sample.

Example str_of_int_404 : PyStr.str_of_int 404 = "404".
Proof. reflexivity. Qed.

Example str_of_int_0 : PyStr.str_of_int 0 = "0".
Proof. reflexivity. Qed.

Example str_of_int_neg : PyStr.str_of_int (-7) = "-7".
Proof. reflexivity. Qed.

Example rstrip_slashes : PyStr.rstrip "/" "https://a/b///" = "https://a/b".
Proof. reflexivity. Qed.

Example rstrip_inner : PyStr.rstrip "/" "a//b" = "a//b".
Proof. reflexivity. Qed.

Example contains_yes : PyStr.contains "404" "code: 404. x" = true.
Proof. reflexivity. Qed.

Example contains_no : PyStr.contains "405" "code: 404. x" = false.
Proof. reflexivity. Qed.

Example float_3_5 : PyFloat.float "3.5" = inr (PyFloat.Dec false 35 (-1)).
Proof. reflexivity. Qed.

Example float_120 : PyFloat.float "120" = inr (PyFloat.Dec false 120 0).
Proof. reflexivity. Qed.

Example float_exp : PyFloat.float " -1_0.25e+3 " = inr (PyFloat.Dec true 1025 1).
Proof. reflexivity. Qed.

Example float_dot : PyFloat.float "." = inl ValueError.
Proof. reflexivity. Qed.

Example float_inf : PyFloat.float "Infinity" = inr (PyFloat.Inf false).
Proof. reflexivity. Qed.

Example float_empty : PyFloat.float "" = inl ValueError.
Proof. reflexivity. Qed.

Example float_http_date :
  PyFloat.float "Wed, 21 Oct 2015 07:28:00 GMT" = inl ValueError.
Proof. reflexivity. Qed.

Example sample_get_bulks :
  get_bulks Sample.client (Sample.responds 200 [] "[]")
  = {| dispatched :=
         [{| Request.method := "GET";
             Request.url := "https://open-catalyst-api.metademolab.com/ocp/bulks";
             Request.kwargs := Kwargs.none |}];
       outcome := Return ("[]" : @Bulks Sample.collaborators) |}.
Proof. reflexivity. Qed.

Example sample_rate_limited :
  outcome (_run_request "u" "GET" Kwargs.none
             (Sample.responds 429 [("retry-after", "3.5")] ""))
  = Raise (Api (@RateLimitExceededException Sample.collaborators "GET" "u"
                  (Some (PyFloat.Dec false 35 (-1))))).
Proof. reflexivity. Qed.

Example sample_not_found :
  outcome (get_adsorbate_slab_relaxations_request
             (H := Sample.collaborators) Sample.client "abc"
             (Sample.responds 404 [] "not found"))
  = Raise (Api (IsNonRetryableRequestException
      "Request to GET https://open-catalyst-api.metademolab.com/ocp/adsorbate-slab-relaxations/abc failed. Unexpected response code: 404. Response body: not found")).
Proof. reflexivity. Qed.

Example sample_redirect :
  outcome (_run_request (H := Sample.collaborators) "u" "GET" Kwargs.none
             (Sample.responds 301 [("Location", "v")] "moved"))
  = Raise (Api (IsRequestException
      "Request to GET u failed. Unexpected response code: 301. Response body: moved")).
Proof. reflexivity. Qed.

Example sample_rate_limited_no_header :
  outcome (_run_request (H := Sample.collaborators) "u" "GET" Kwargs.none
             (Sample.responds 429 [("Content-Length", "0")] ""))
  = Raise (Api (IsRateLimitExceededException
      "Request to GET u failed. Exceeded rate limit" None)).
Proof. reflexivity. Qed.

Example sample_rate_limited_infinite :
  outcome (_run_request (H := Sample.collaborators) "u" "GET" Kwargs.none
             (Sample.responds 429 [("Retry-After", "inf")] ""))
  = Raise (Builtin OverflowError).
Proof. reflexivity. Qed.

Example sample_connection_refused :
  outcome (_run_request (H := Sample.collaborators) "u" "GET" Kwargs.none
             (Sample.fails "ConnectionError" "Connection refused"))
  = Raise (Api (IsRequestException
      "Request to GET u failed. Exception while making request: ConnectionError: Connection refused")).
Proof. reflexivity. Qed.

Example sample_not_an_Exception :
  outcome (_run_request (H := Sample.collaborators) "u" "GET" Kwargs.none
             (Sample.raises Sample.keyboard_interrupt))
  = Raise (Foreign Sample.keyboard_interrupt).
Proof. reflexivity. Qed.

Example sample_futures_cancelled :
  outcome (_run_request (H := Sample.collaborators) "u" "GET" Kwargs.none
             (Sample.raises (Sample.futures_cancelled "stop")))
  = Raise (Foreign {| exc_type_name := "CancelledError"; exc_str := "stop";
                      exc_is_Exception := false;
                      exc_class := IsAnotherClass |}).
Proof. reflexivity. Qed.

Example sample_stop_iteration :
  _run_request (H := Sample.collaborators) "u" "GET" Kwargs.none
    (Sample.raises (Sample.stop_iteration "done"))
  = {| dispatched :=
         [{| Request.method := "GET"; Request.url := "u";
             Request.kwargs := Kwargs.none |}];
       outcome := NeverCompletes |}.
Proof. reflexivity. Qed.

Example sample_decode_error :
  outcome (get_bulks (H := Sample.collaborators) Sample.client
             (Sample.responds 200 [] ""))
  = Raise (Foreign {| exc_type_name := "JSONDecodeError";
                      exc_str := "Expecting value: line 1 column 1 (char 0)";
                      exc_is_Exception := true;
                      exc_class := IsAnotherClass |}).
Proof. reflexivity. Qed.

Example sample_results_params :
  results_params (Some [3; 5]) (Some ["energies"; "forces"])
  = [("field", StrList ["energies"; "forces"]);
     ("config_id", IntList [3; 5])].
Proof. reflexivity. Qed.

Example sample_results_params_empty :
  results_params (Some []) (Some ["energies"])
  = [("field", StrList ["energies"])].
Proof. reflexivity. Qed.

(** ** Facts about strings *)

Section StringFacts.

Lemma prefix_app (a b : string) : String.prefix a (a ++ b) = true.
Proof.
  induction a as [|c a IH]; simpl.
  - now destruct b.
  - destruct (ascii_dec c c) as [_|Hne]; [exact IH | now elim Hne].
Qed.

Lemma prefix_inv (a s : string) :
  String.prefix a s = true -> exists post, s = a ++ post.
Proof.
  revert s; induction a as [|c a IH]; intros s Hp.
  - now exists s.
  - destruct s as [|d s]; simpl in Hp; [discriminate|].
    destruct (ascii_dec c d) as [->|_]; [|discriminate].
    destruct (IH s Hp) as [post ->].
    now exists post.
Qed.

Lemma contains_of_prefix (sub s : string) :
  String.prefix sub s = true -> PyStr.contains sub s = true.
Proof. intros Hp. destruct s; cbn [PyStr.contains]; now rewrite Hp. Qed.

(** [contains] finds every occurrence... *)
Lemma contains_app (pre sub post : string) :
  PyStr.contains sub (pre ++ sub ++ post) = true.
Proof.
  induction pre as [|c pre IH].
  - cbn [append]. apply contains_of_prefix, prefix_app.
  - change (PyStr.contains sub (String c (pre ++ sub ++ post)) = true).
    cbn [PyStr.contains]. rewrite IH. apply orb_true_r.
Qed.

(** ...and nothing else. *)
Lemma contains_inv (sub s : string) :
  PyStr.contains sub s = true -> exists pre post, s = pre ++ sub ++ post.
Proof.
  induction s as [|c s IH]; cbn [PyStr.contains]; intros Hc.
  - rewrite orb_false_r in Hc.
    destruct (prefix_inv _ _ Hc) as [post E].
    now exists EmptyString, post.
  - apply orb_true_iff in Hc as [Hp|Hc].
    + destruct (prefix_inv _ _ Hp) as [post E].
      now exists EmptyString, post.
    + destruct (IH Hc) as [pre [post ->]].
      now exists (String c pre), post.
Qed.

Lemma contains_prefix (sub post : string) :
  PyStr.contains sub (sub ++ post) = true.
Proof. exact (contains_app EmptyString sub post). Qed.

Lemma contains_refl (s : string) : PyStr.contains s s = true.
Proof.
  assert (E : s ++ EmptyString = s) by (induction s; simpl; congruence).
  rewrite <- E at 2. apply contains_prefix.
Qed.

Lemma contains_append_r (sub a b : string) :
  PyStr.contains sub b = true -> PyStr.contains sub (a ++ b) = true.
Proof.
  intros Hc. destruct (contains_inv _ _ Hc) as [pre [post ->]].
  assert (E : forall x y z : string, x ++ y ++ z = (x ++ y) ++ z)
    by (intros x y z; induction x; simpl; congruence).
  rewrite E. apply contains_app.
Qed.

Lemma rstrip_by_replicate (p : ascii -> bool) (c : ascii) (n : nat) :
  p c = true -> PyStr.rstrip_by p (PyStr.replicate n c) = EmptyString.
Proof.
  intros Hc. induction n as [|n IH]; simpl; [reflexivity|].
  now rewrite IH, Hc.
Qed.

Lemma rstrip_by_app_replicate (p : ascii -> bool) (c : ascii) (n : nat)
    (s : string) :
  p c = true ->
  PyStr.rstrip_by p (s ++ PyStr.replicate n c) = PyStr.rstrip_by p s.
Proof.
  intros Hc. induction s as [|d s IH]; simpl.
  - now apply rstrip_by_replicate.
  - now rewrite IH.
Qed.

(** What [rstrip_by] removes is a run of characters that satisfy [p]. *)
Lemma rstrip_by_removed (p : ascii -> bool) (s : string) :
  exists suffix,
    s = PyStr.rstrip_by p s ++ suffix
    /\ forall c, PyStr.mem_char c suffix = true -> p c = true.
Proof.
  induction s as [|d s (suffix & Es & Hp)]; cbn [PyStr.rstrip_by].
  - exists EmptyString. split; [reflexivity | discriminate].
  - destruct (PyStr.rstrip_by p s) as [|r0 r] eqn:Er; cbn.
    + destruct (p d) eqn:Ed.
      * exists (String d suffix). split; [now rewrite Es|].
        intros c. cbn. intros Hc. apply orb_true_iff in Hc as [Hc|Hc].
        -- apply Ascii.eqb_eq in Hc. now subst.
        -- now apply Hp.
      * exists suffix. split; [now rewrite Es at 1|exact Hp].
    + exists suffix. split; [now rewrite Es at 1|exact Hp].
Qed.

(** What [rstrip_by] leaves does not end with a character that satisfies
    [p]. *)
Lemma rstrip_by_no_trailing (p : ascii -> bool) (s t : string) (c : ascii) :
  PyStr.rstrip_by p s = t ++ String c EmptyString -> p c = false.
Proof.
  revert t. induction s as [|d s IH]; intros t; cbn [PyStr.rstrip_by].
  - destruct t; discriminate.
  - destruct (PyStr.rstrip_by p s) as [|r0 r] eqn:Er; cbn.
    + destruct (p d) eqn:Ep; [destruct t; discriminate|].
      destruct t as [|t0 t]; cbn; intros E; inversion E; subst.
      * exact Ep.
      * destruct t; discriminate.
    + destruct t as [|t0 t]; cbn; intros E; inversion E; subst.
      apply (IH t). assumption.
Qed.

Lemma all_slashes (suffix : string) :
  (forall c, PyStr.mem_char c suffix = true -> PyStr.mem_char c "/" = true) ->
  suffix = PyStr.replicate (String.length suffix) "/"%char.
Proof.
  induction suffix as [|d suffix IH]; intros Hs; [reflexivity|].
  cbn [String.length PyStr.replicate].
  assert (Hd : d = "/"%char).
  { specialize (Hs d). cbn in Hs. rewrite Ascii.eqb_refl in Hs.
    specialize (Hs eq_refl). rewrite orb_false_r in Hs.
    now apply Ascii.eqb_eq in Hs. }
  rewrite <- IH, Hd; [reflexivity|].
  intros c Hc. apply Hs. cbn. rewrite Hc. apply orb_true_r.
Qed.

Lemma rstrip_app_slashes (n : nat) (s : string) :
  PyStr.rstrip "/" (s ++ PyStr.replicate n "/"%char) = PyStr.rstrip "/" s.
Proof. now apply rstrip_by_app_replicate. Qed.

End StringFacts.

(** ** The classification made by [_run_request] *)

(** Runs [_run_request] up to the answer of the transport. *)
Ltac run_request :=
  unfold _run_request, bind, to_thread_request; cbn [outcome dispatched].

Section Classification.
Context `{Collaborators}.

Variables (adapter : Adapter) (url method : string) (kwargs : Kwargs.t).

Lemma request_failed_contains_method (cause : string) :
  PyStr.contains method (request_failed method url cause) = true.
Proof. unfold request_failed. apply contains_append_r, contains_prefix. Qed.

Lemma request_failed_contains_url (cause : string) :
  PyStr.contains url (request_failed method url cause) = true.
Proof.
  unfold request_failed.
  do 3 apply contains_append_r. apply contains_prefix.
Qed.

Lemma unexpected_response_contains_code (response : Response.t) :
  PyStr.contains (PyStr.str_of_int (Response.status_code response))
    (unexpected_response response) = true.
Proof. unfold unexpected_response. apply contains_append_r, contains_prefix. Qed.

Lemma unexpected_response_contains_text (response : Response.t) :
  PyStr.contains (Response.text response) (unexpected_response response)
  = true.
Proof.
  unfold unexpected_response. do 3 apply contains_append_r.
  apply contains_refl.
Qed.

Lemma request_failed_contains_cause (sub cause : string) :
  PyStr.contains sub cause = true ->
  PyStr.contains sub (request_failed method url cause) = true.
Proof.
  intros Hc. unfold request_failed. now do 5 apply contains_append_r.
Qed.



(** [_run_request] hands exactly one request to the transport, whatever
    the transport answers. *)
Lemma run_request_dispatched :
  dispatched (_run_request url method kwargs adapter)
  = [Request.Build_t method url kwargs].
Proof.
  run_request.
  destruct (adapter (Request.Build_t method url kwargs)) as [e|response].
  - destruct (awaited_exception e) as [e'|]; [|reflexivity].
    now destruct (exc_is_Exception e').
  - cbn [outcome dispatched].
    destruct (300 <=? _); [|reflexivity].
    destruct (_ =? 429).
    + destruct (Response.headers_get _ _) as [v|]; [|reflexivity].
      unfold bind.
      destruct (PyFloat.float v) as [err|x]; [reflexivity|].
      cbn. now destruct (timedelta_seconds x).
    + now destruct (_ && _)%bool.
Qed.

(** X6: status 429 without a [Retry-After] header: rate limited, no hint. *)
Lemma run_request_429_no_header (response : Response.t) :
  adapter (Request.Build_t method url kwargs) = inr response ->
  Response.status_code response = 429 ->
  Response.headers_get "Retry-After" (Response.headers response) = None ->
  outcome (_run_request url method kwargs adapter)
  = Raise (Api (RateLimitExceededException method url None)).
Proof.
  intros Ha Hs Hh.
  run_request. rewrite Ha, Hs, Hh. reflexivity.
Qed.

(** X7: status 429 with a [Retry-After] header that [float] accepts and of
    which [timedelta] can be built: rate limited, with that hint. *)
Lemma run_request_429_hint (response : Response.t) (v : string)
    (x : PyFloat.pyfloat) (delta : timedelta) :
  adapter (Request.Build_t method url kwargs) = inr response ->
  Response.status_code response = 429 ->
  Response.headers_get "Retry-After" (Response.headers response) = Some v ->
  PyFloat.float v = inr x ->
  timedelta_seconds x = inr delta ->
  outcome (_run_request url method kwargs adapter)
  = Raise (Api (IsRateLimitExceededException
                  (request_failed method url "Exceeded rate limit")
                  (Some delta))).
Proof.
  intros Ha Hs Hh Hf Ht.
  run_request. rewrite Ha, Hs, Hh. cbn. unfold bind.
  rewrite Hf. cbn. rewrite Ht. reflexivity.
Qed.

(** X8: status 429 with a [Retry-After] header that [float] rejects: the
    [ValueError] of [float] leaves [_run_request], and no
    [RateLimitExceededException] is raised. *)
Lemma run_request_429_float_raises (response : Response.t) (v : string)
    (err : BuiltinError) :
  adapter (Request.Build_t method url kwargs) = inr response ->
  Response.status_code response = 429 ->
  Response.headers_get "Retry-After" (Response.headers response) = Some v ->
  PyFloat.float v = inl err ->
  outcome (_run_request url method kwargs adapter) = Raise (Builtin err).
Proof.
  intros Ha Hs Hh Hf.
  run_request. rewrite Ha, Hs, Hh. cbn. unfold bind.
  rewrite Hf. reflexivity.
Qed.

(** Status 429 with a [Retry-After] header that is a float of which no
    [timedelta] can be built: the error of [timedelta] leaves
    [_run_request]. *)
Lemma run_request_429_timedelta_raises (response : Response.t) (v : string)
    (x : PyFloat.pyfloat) (err : BuiltinError) :
  adapter (Request.Build_t method url kwargs) = inr response ->
  Response.status_code response = 429 ->
  Response.headers_get "Retry-After" (Response.headers response) = Some v ->
  PyFloat.float v = inr x ->
  timedelta_seconds x = inl err ->
  outcome (_run_request url method kwargs adapter) = Raise (Builtin err).
Proof.
  intros Ha Hs Hh Hf Ht.
  run_request. rewrite Ha, Hs, Hh. cbn. unfold bind.
  rewrite Hf. cbn. rewrite Ht. reflexivity.
Qed.

End Classification.

(** ** Properties of [_run_request] *)

(** C1 does not hold of the code: for a 429 response whose [Retry-After]
    header is an HTTP date (the other form the header takes on the wire),
    [float] raises [ValueError] outside the [try], so [_run_request] ends
    with that [ValueError] and raises no [RateLimitExceededException],
    whatever the URL, the method and the keyword arguments. *)
Theorem run_request_429_http_date_raises_ValueError `{Collaborators}
    (url method : string) (kwargs : Kwargs.t) :
  _run_request url method kwargs
    (Sample.responds 429
       [("Retry-After", "Wed, 21 Oct 2015 07:28:00 GMT")] "Too Many Requests")
  = {| dispatched :=
         [{| Request.method := method; Request.url := url;
             Request.kwargs := kwargs |}];
       outcome := Raise (Builtin ValueError) |}.
Proof. reflexivity. Qed.

(** C2: when the transport answers with a status code below 300,
    [_run_request] makes that one request and returns the text of the
    response, unchanged; nothing is raised. *)
Theorem run_request_success `{Collaborators} (adapter : Adapter)
    (url method : string) (kwargs : Kwargs.t) (response : Response.t) :
  adapter {| Request.method := method; Request.url := url;
             Request.kwargs := kwargs |} = inr response ->
  Response.status_code response < 300 ->
  _run_request url method kwargs adapter
  = {| dispatched :=
         [{| Request.method := method; Request.url := url;
             Request.kwargs := kwargs |}];
       outcome := Return (Response.text response) |}.
Proof.
  intros Ha Hs.
  run_request. rewrite Ha.
  destruct (300 <=? Response.status_code response) eqn:E.
  - apply Z.leb_le in E. lia.
  - reflexivity.
Qed.

Lemma run_request_success_witness :
  Sample.responds 200 [] "[]"
    {| Request.method := "GET"; Request.url := "http://h/bulks";
       Request.kwargs := Kwargs.none |} = inr (Sample.response 200 [] "[]")
  /\ Response.status_code (Sample.response 200 [] "[]") < 300
  /\ _run_request (H := Sample.collaborators) "http://h/bulks" "GET"
       Kwargs.none (Sample.responds 200 [] "[]")
     = {| dispatched :=
            [{| Request.method := "GET"; Request.url := "http://h/bulks";
                Request.kwargs := Kwargs.none |}];
          outcome := Return "[]" |}.
Proof.
  split; [reflexivity|]. split; [simpl; lia|].
  apply (run_request_success (Sample.responds 200 [] "[]")
           "http://h/bulks" "GET" Kwargs.none (Sample.response 200 [] "[]"));
    [reflexivity | simpl; lia].
Defined.

(** C3: when the transport answers with a status code in [400, 500) other
    than 429, the exception that [_run_request] raises is a
    [NonRetryableRequestException] whose message is
    [Request to <method> <url> failed. <cause>] with the f-string
    [unexpected_response] as cause; the cause, and so the message of the
    raised exception, contains the status code in decimal and the whole
    text of the response. *)
Theorem run_request_client_fault `{Collaborators} (adapter : Adapter)
    (url method : string) (kwargs : Kwargs.t) (response : Response.t) :
  adapter {| Request.method := method; Request.url := url;
             Request.kwargs := kwargs |} = inr response ->
  400 <= Response.status_code response < 500 ->
  Response.status_code response <> 429 ->
  outcome (_run_request url method kwargs adapter)
  = Raise (Api (IsNonRetryableRequestException
                  (request_failed method url (unexpected_response response))))
  /\ PyStr.contains (PyStr.str_of_int (Response.status_code response))
       (unexpected_response response) = true
  /\ PyStr.contains (Response.text response) (unexpected_response response)
     = true
  /\ PyStr.contains (PyStr.str_of_int (Response.status_code response))
       (request_failed method url (unexpected_response response)) = true
  /\ PyStr.contains (Response.text response)
       (request_failed method url (unexpected_response response)) = true.
Proof.
  intros Ha Hs Hn. split.
  - run_request. rewrite Ha.
    destruct (300 <=? Response.status_code response) eqn:E300;
      [|apply Z.leb_gt in E300; lia].
    destruct (Response.status_code response =? 429) eqn:E429;
      [apply Z.eqb_eq in E429; contradiction|].
    destruct (400 <=? Response.status_code response) eqn:E400;
      [|apply Z.leb_gt in E400; lia].
    destruct (Response.status_code response <? 500) eqn:E500;
      [|apply Z.ltb_ge in E500; lia].
    reflexivity.
  - repeat split.
    + apply unexpected_response_contains_code.
    + apply unexpected_response_contains_text.
    + apply request_failed_contains_cause,
        unexpected_response_contains_code.
    + apply request_failed_contains_cause,
        unexpected_response_contains_text.
Qed.

Lemma run_request_client_fault_witness :
  400 <= Response.status_code (Sample.response 404 [] "not found") < 500
  /\ Response.status_code (Sample.response 404 [] "not found") <> 429
  /\ outcome (_run_request (H := Sample.collaborators) "http://h/x" "GET"
             Kwargs.none (Sample.responds 404 [] "not found"))
  = Raise (Api (IsNonRetryableRequestException
      "Request to GET http://h/x failed. Unexpected response code: 404. Response body: not found"))
  /\ PyStr.contains "404"
       "Unexpected response code: 404. Response body: not found" = true
  /\ PyStr.contains "not found"
       "Unexpected response code: 404. Response body: not found" = true
  /\ PyStr.contains "404"
       "Request to GET http://h/x failed. Unexpected response code: 404. Response body: not found"
     = true
  /\ PyStr.contains "not found"
       "Request to GET http://h/x failed. Unexpected response code: 404. Response body: not found"
     = true.
Proof.
  split; [simpl; lia|]. split; [simpl; lia|].
  apply (run_request_client_fault (Sample.responds 404 [] "not found")
           "http://h/x" "GET" Kwargs.none
           (Sample.response 404 [] "not found"));
    [reflexivity | simpl; lia | simpl; lia].
Defined.

(** C4: when the transport answers with a status code of 500 or more, or in
    [300, 400), [_run_request] raises the base [RequestException] (the class
    itself, neither subclass) with the same f-string cause, which contains
    the status code in decimal and the whole text of the response. *)
Theorem run_request_server_fault `{Collaborators} (adapter : Adapter)
    (url method : string) (kwargs : Kwargs.t) (response : Response.t) :
  adapter {| Request.method := method; Request.url := url;
             Request.kwargs := kwargs |} = inr response ->
  500 <= Response.status_code response
  \/ 300 <= Response.status_code response < 400 ->
  outcome (_run_request url method kwargs adapter)
  = Raise (Api (IsRequestException
                  (request_failed method url (unexpected_response response))))
  /\ PyStr.contains (PyStr.str_of_int (Response.status_code response))
       (unexpected_response response) = true
  /\ PyStr.contains (Response.text response) (unexpected_response response)
     = true.
Proof.
  intros Ha Hs. split.
  - run_request. rewrite Ha.
    destruct (300 <=? Response.status_code response) eqn:E300;
      [|apply Z.leb_gt in E300; lia].
    destruct (Response.status_code response =? 429) eqn:E429;
      [apply Z.eqb_eq in E429; lia|].
    destruct (400 <=? Response.status_code response) eqn:E400;
      destruct (Response.status_code response <? 500) eqn:E500;
      try reflexivity.
    apply Z.leb_le in E400. apply Z.ltb_lt in E500. lia.
  - split.
    + apply unexpected_response_contains_code.
    + apply unexpected_response_contains_text.
Qed.

Lemma run_request_server_fault_witness :
  500 <= Response.status_code (Sample.response 503 [] "busy")
  /\ outcome (_run_request (H := Sample.collaborators) "http://h/x" "GET"
             Kwargs.none (Sample.responds 503 [] "busy"))
  = Raise (Api (IsRequestException
      "Request to GET http://h/x failed. Unexpected response code: 503. Response body: busy"))
  /\ PyStr.contains "503"
       (unexpected_response (Sample.response 503 [] "busy")) = true
  /\ PyStr.contains "busy"
       (unexpected_response (Sample.response 503 [] "busy")) = true.
Proof.
  split; [simpl; lia|].
  apply (run_request_server_fault (Sample.responds 503 [] "busy")
           "http://h/x" "GET" Kwargs.none (Sample.response 503 [] "busy"));
    [reflexivity | left; simpl; lia].
Defined.




(** C7: whenever [_run_request] raises one of the module's exceptions
    ([RequestException] from a transport fault or from a status code,
    [NonRetryableRequestException], [RateLimitExceededException]), the
    message of that exception is [Request to <method> <url> failed. <cause>]
    for some cause, so that it contains the method and the URL of the
    call. *)
Theorem run_request_error_carries_method_and_url `{Collaborators}
    (adapter : Adapter) (url method : string) (kwargs : Kwargs.t)
    (e : ApiException) :
  outcome (_run_request url method kwargs adapter) = Raise (Api e) ->
  (exists cause, message e = request_failed method url cause)
  /\ PyStr.contains method (message e) = true
  /\ PyStr.contains url (message e) = true.
Proof.
  intros Ho.
  assert (Hc : exists cause, message e = request_failed method url cause).
  { revert Ho.
    run_request.
    destruct (adapter _) as [exc|response].
    - destruct (awaited_exception exc) as [exc'|]; [|cbn; discriminate].
      destruct (exc_is_Exception exc'); cbn; intros Ho; inversion Ho.
      + eexists; reflexivity.
    - cbn [outcome dispatched].
      destruct (300 <=? _); [|cbn; discriminate].
      destruct (_ =? 429).
      + destruct (Response.headers_get _ _) as [v|].
        * unfold bind.
          destruct (PyFloat.float v) as [err|x]; [cbn; discriminate|].
          cbn. destruct (timedelta_seconds x); cbn; intros Ho; inversion Ho.
          eexists; reflexivity.
        * cbn; intros Ho; inversion Ho. eexists; reflexivity.
      + destruct (_ && _)%bool; cbn; intros Ho; inversion Ho;
          eexists; reflexivity. }
  split; [exact Hc|].
  destruct Hc as [cause ->]. split.
  - apply request_failed_contains_method.
  - apply request_failed_contains_url.
Qed.

Lemma run_request_error_carries_method_and_url_witness :
  outcome (_run_request (H := Sample.collaborators) "http://h/x" "DELETE"
             Kwargs.none (Sample.responds 429 [] ""))
  = Raise (Api (RateLimitExceededException "DELETE" "http://h/x" None))
  /\ PyStr.contains "DELETE"
       "Request to DELETE http://h/x failed. Exceeded rate limit" = true
  /\ PyStr.contains "http://h/x"
       "Request to DELETE http://h/x failed. Exceeded rate limit" = true.
Proof.
  split; [reflexivity|].
  apply (run_request_error_carries_method_and_url
           (H := Sample.collaborators) (Sample.responds 429 [] "")
           "http://h/x" "DELETE" Kwargs.none
           (RateLimitExceededException "DELETE" "http://h/x" None)).
  reflexivity.
Defined.

(** ** Properties of the requests the endpoints build *)

Section Endpoints.
Context `{Collaborators}.

Lemma dispatched_bind {A B : Type} (m : Async A) (k : A -> Async B)
    (adapter : Adapter) :
  (forall a, dispatched (k a adapter) = []) ->
  dispatched (bind m k adapter) = dispatched (m adapter).
Proof.
  intros Hk. unfold bind.
  destruct (outcome (m adapter)) as [a|r|]; cbn; try reflexivity.
  rewrite Hk. apply app_nil_r.
Qed.

Lemma dispatched_decode {A : Type} (x : PyException + A)
    (adapter : Adapter) :
  dispatched (decode x adapter) = [].
Proof. now destruct x. Qed.

(** A client built from a base URL followed by slashes is the client built
    from the base URL. *)
Lemma init_trailing_slashes (base_url : string) (n : nat) :
  __init__ (base_url ++ PyStr.replicate n "/"%char) = __init__ base_url.
Proof. unfold __init__. now rewrite rstrip_app_slashes. Qed.

(** What the constructor stores: [base_url] without a final run of
    slashes, and not ending with a slash. *)
Lemma init_base_url (base_url : string) :
  (exists k, base_url
             = _base_url (__init__ base_url) ++ PyStr.replicate k "/"%char)
  /\ (forall t, _base_url (__init__ base_url) <> t ++ "/").
Proof.
  unfold __init__, PyStr.rstrip; cbn [_base_url]. split.
  - destruct (rstrip_by_removed (fun c => PyStr.mem_char c "/") base_url)
      as (suffix & Es & Hs).
    exists (String.length suffix). now rewrite <- all_slashes.
  - intros t Et. apply rstrip_by_no_trailing in Et. discriminate.
Qed.

End Endpoints.

(** C6: in [get_adsorbate_slab_relaxations_results], an empty [config_ids]
    is the same call as [config_ids=None] whatever [fields] is, an empty
    [fields] is the same call as [fields=None] whatever [config_ids] is, and
    with both empty or absent the one request made is a GET of
    [<base>/adsorbate-slab-relaxations/<system_id>/configs] whose [params]
    dictionary has no item: neither [config_id] nor [field]. *)
Theorem results_empty_filter_is_absent `{Collaborators} (self : Client)
    (system_id : string) (config_ids : option (list Z))
    (fields : option (list string)) (adapter : Adapter) :
  get_adsorbate_slab_relaxations_results self system_id (Some []) fields
  = get_adsorbate_slab_relaxations_results self system_id None fields
  /\ get_adsorbate_slab_relaxations_results self system_id config_ids (Some [])
     = get_adsorbate_slab_relaxations_results self system_id config_ids None
  /\ get_adsorbate_slab_relaxations_results self system_id (Some []) (Some [])
     = get_adsorbate_slab_relaxations_results self system_id None None
  /\ Dict.get "config_id" (results_params (Some []) fields) = None
  /\ Dict.get "field" (results_params config_ids (Some [])) = None
  /\ dispatched
       (get_adsorbate_slab_relaxations_results self system_id
          (Some []) (Some []) adapter)
     = [{| Request.method := "GET";
           Request.url :=
             _base_url self ++ "/adsorbate-slab-relaxations/" ++ system_id
               ++ "/configs";
           Request.kwargs :=
             {| Kwargs.params := Some Dict.empty; Kwargs.data := None;
                Kwargs.headers := None |} |}].
Proof.
  repeat split.
  - now destruct fields as [[|f l]|].
  - now destruct config_ids as [[|c l]|].
  - unfold get_adsorbate_slab_relaxations_results.
    rewrite dispatched_bind by (intros; apply dispatched_decode).
    apply run_request_dispatched.
Qed.

(** C9: the constructor removes every trailing [/] of [base_url] (what it
    stores is [b] without a final run of [/], and does not end with [/]); a
    client built from [b] followed by any number of [/] is the client built
    from [b], and on every endpoint method, with the same arguments and the same
    transport, the two make the same requests (same URL, character for
    character) and end the same way. *)
Theorem trailing_slashes_same_requests `{Collaborators} (b : string)
    (n : nat) (adapter : Adapter) :
  let c1 := __init__ (b ++ PyStr.replicate n "/"%char) in
  let c2 := __init__ b in
  (exists k, b = _base_url c2 ++ PyStr.replicate k "/"%char)
  /\ (forall t, _base_url c2 <> t ++ "/")
  /\ c1 = c2
  /\ get_bulks c1 adapter = get_bulks c2 adapter
  /\ get_adsorbates c1 adapter = get_adsorbates c2 adapter
  /\ (forall bulk, get_slabs c1 bulk adapter = get_slabs c2 bulk adapter)
  /\ (forall adsorbate slab,
        get_adsorbate_slab_configs c1 adsorbate slab adapter
        = get_adsorbate_slab_configs c2 adsorbate slab adapter)
  /\ (forall adsorbate adsorbate_configs bulk slab model ephemeral,
        submit_adsorbate_slab_relaxations c1 adsorbate adsorbate_configs bulk
          slab model ephemeral adapter
        = submit_adsorbate_slab_relaxations c2 adsorbate adsorbate_configs
            bulk slab model ephemeral adapter)
  /\ (forall system_id,
        get_adsorbate_slab_relaxations_request c1 system_id adapter
        = get_adsorbate_slab_relaxations_request c2 system_id adapter)
  /\ (forall system_id config_ids fields,
        get_adsorbate_slab_relaxations_results c1 system_id config_ids fields
          adapter
        = get_adsorbate_slab_relaxations_results c2 system_id config_ids
            fields adapter)
  /\ (forall system_id,
        delete_adsorbate_slab_relaxations c1 system_id adapter
        = delete_adsorbate_slab_relaxations c2 system_id adapter).
Proof.
  intros c1 c2.
  assert (E : c1 = c2) by apply init_trailing_slashes.
  rewrite E.
  split; [apply init_base_url|]. split; [apply init_base_url|].
  repeat split.
Qed.

(** C10: [get_slabs] called with a [Bulk] and [get_slabs] called with the
    [src_id] of that [Bulk] are the same call: against every transport they
    make the same single request, a POST of [<base>/slabs] with the header
    [Content-Type: application/json] and the body
    [json.dumps({"bulk_src_id": b.src_id})], and end the same way. *)
Theorem get_slabs_bulk_or_src_id `{Collaborators} (self : Client) (b : Bulk)
    (adapter : Adapter) :
  get_slabs self (a_Bulk b) adapter = get_slabs self (a_str (src_id b)) adapter
  /\ dispatched (get_slabs self (a_Bulk b) adapter)
     = [{| Request.method := "POST";
           Request.url := _base_url self ++ "/slabs";
           Request.kwargs :=
             {| Kwargs.params := None;
                Kwargs.data :=
                  Some (json_dumps (JDict [("bulk_src_id", JStr (src_id b))]));
                Kwargs.headers :=
                  Some [("Content-Type", "application/json")] |} |}].
Proof.
  split; [reflexivity|].
  unfold get_slabs.
  rewrite dispatched_bind by (intros; apply dispatched_decode).
  apply run_request_dispatched.
Qed.

(** ** What each outcome of [_run_request] says about the transport *)


(** Turns the boolean tests on the status code into (in)equalities. *)
Ltac status_tests :=
  repeat match goal with
  | H : (_ <=? _) = true |- _ => apply Z.leb_le in H
  | H : (_ <=? _) = false |- _ => apply Z.leb_gt in H
  | H : (_ <? _) = true |- _ => apply Z.ltb_lt in H
  | H : (_ <? _) = false |- _ => apply Z.ltb_ge in H
  | H : (_ =? _) = true |- _ => apply Z.eqb_eq in H
  | H : (_ =? _) = false |- _ => apply Z.eqb_neq in H
  end.










Lemma run_request_429_no_header_witness :
  Sample.responds 429 [("Date", "today")] "slow down"
    {| Request.method := "GET"; Request.url := "u";
       Request.kwargs := Kwargs.none |}
  = inr (Sample.response 429 [("Date", "today")] "slow down")
  /\ outcome (_run_request (H := Sample.collaborators) "u" "GET" Kwargs.none
                (Sample.responds 429 [("Date", "today")] "slow down"))
     = Raise (Api (RateLimitExceededException "GET" "u" None)).
Proof.
  split; [reflexivity|].
  apply (run_request_429_no_header (H := Sample.collaborators)
           (Sample.responds 429 [("Date", "today")] "slow down")
           "u" "GET" Kwargs.none
           (Sample.response 429 [("Date", "today")] "slow down"));
    reflexivity.
Defined.

Lemma run_request_429_hint_witness :
  PyFloat.float "3.5" = inr (PyFloat.Dec false 35 (-1))
  /\ Sample.seconds (PyFloat.Dec false 35 (-1))
     = inr (PyFloat.Dec false 35 (-1))
  /\ outcome (_run_request (H := Sample.collaborators) "u" "GET" Kwargs.none
                (Sample.responds 429 [("Retry-After", "3.5")] ""))
     = Raise (Api (@IsRateLimitExceededException Sample.collaborators
                     "Request to GET u failed. Exceeded rate limit"
                     (Some (PyFloat.Dec false 35 (-1))))).
Proof.
  split; [reflexivity|]. split; [reflexivity|].
  apply (run_request_429_hint (H := Sample.collaborators)
           (Sample.responds 429 [("Retry-After", "3.5")] "")
           "u" "GET" Kwargs.none
           (Sample.response 429 [("Retry-After", "3.5")] "")
           "3.5" (PyFloat.Dec false 35 (-1)) (PyFloat.Dec false 35 (-1)));
    reflexivity.
Defined.

Lemma run_request_429_float_raises_witness :
  PyFloat.float "a while" = inl ValueError
  /\ outcome (_run_request (H := Sample.collaborators) "u" "GET" Kwargs.none
                (Sample.responds 429 [("Retry-After", "a while")] ""))
     = Raise (Builtin ValueError).
Proof.
  split; [reflexivity|].
  apply (run_request_429_float_raises (H := Sample.collaborators)
           (Sample.responds 429 [("Retry-After", "a while")] "")
           "u" "GET" Kwargs.none
           (Sample.response 429 [("Retry-After", "a while")] "")
           "a while" ValueError);
    reflexivity.
Defined.

(** ** The endpoint methods *)

Section EndpointFacts.
Context `{Collaborators}.

Lemma outcome_bind_raise {A B : Type} (m : Async A) (k : A -> Async B)
    (adapter : Adapter) (r : Raised) :
  outcome (m adapter) = Raise r -> outcome (bind m k adapter) = Raise r.
Proof. intros Hm. unfold bind. now rewrite Hm. Qed.



End EndpointFacts.

(** Reduces the requests of an endpoint to those of its [_run_request]. *)
Ltac endpoint_dispatched :=
  rewrite dispatched_bind;
  [ apply run_request_dispatched
  | intros; first [apply dispatched_decode | reflexivity] ].

(** X9: every endpoint method hands exactly one request to the transport,
    whatever the transport answers and whether or not the body can be
    decoded: the method, the path under the stored base URL and the keyword
    arguments of the eight routes. *)
Theorem endpoint_requests `{Collaborators} (self : Client)
    (adapter : Adapter) :
  dispatched (get_bulks self adapter)
  = [{| Request.method := "GET"; Request.url := _base_url self ++ "/bulks";
        Request.kwargs := Kwargs.none |}]
  /\ dispatched (get_adsorbates self adapter)
     = [{| Request.method := "GET";
           Request.url := _base_url self ++ "/adsorbates";
           Request.kwargs := Kwargs.none |}]
  /\ (forall bulk,
        dispatched (get_slabs self bulk adapter)
        = [{| Request.method := "POST";
              Request.url := _base_url self ++ "/slabs";
              Request.kwargs :=
                {| Kwargs.params := None;
                   Kwargs.data :=
                     Some (json_dumps
                             (JDict [("bulk_src_id",
                                      JStr match bulk with
                                           | a_Bulk b => src_id b
                                           | a_str s => s
                                           end)]));
                   Kwargs.headers :=
                     Some [("Content-Type", "application/json")] |} |}])
  /\ (forall adsorbate slab,
        dispatched (get_adsorbate_slab_configs self adsorbate slab adapter)
        = [{| Request.method := "POST";
              Request.url := _base_url self ++ "/adsorbate-slab-configs";
              Request.kwargs :=
                {| Kwargs.params := None;
                   Kwargs.data :=
                     Some (json_dumps
                             (JDict [("adsorbate", JStr adsorbate);
                                     ("slab", Slab_to_dict slab)]));
                   Kwargs.headers :=
                     Some [("Content-Type", "application/json")] |} |}])
  /\ (forall adsorbate adsorbate_configs bulk slab model ephemeral,
        dispatched
          (submit_adsorbate_slab_relaxations self adsorbate adsorbate_configs
             bulk slab model ephemeral adapter)
        = [{| Request.method := "POST";
              Request.url := _base_url self ++ "/adsorbate-slab-relaxations";
              Request.kwargs :=
                {| Kwargs.params := None;
                   Kwargs.data :=
                     Some (json_dumps
                             (JDict
                                [("adsorbate", JStr adsorbate);
                                 ("adsorbate_configs",
                                  JList (map Atoms_to_dict adsorbate_configs));
                                 ("bulk", Bulk_to_dict bulk);
                                 ("slab", Slab_to_dict slab);
                                 ("model", JStr (Model_str model));
                                 ("ephemeral", JBool ephemeral)]));
                   Kwargs.headers :=
                     Some [("Content-Type", "application/json")] |} |}])
  /\ (forall system_id,
        dispatched
          (get_adsorbate_slab_relaxations_request self system_id adapter)
        = [{| Request.method := "GET";
              Request.url :=
                _base_url self ++ "/adsorbate-slab-relaxations/" ++ system_id;
              Request.kwargs := Kwargs.none |}])
  /\ (forall system_id config_ids fields,
        dispatched
          (get_adsorbate_slab_relaxations_results self system_id config_ids
             fields adapter)
        = [{| Request.method := "GET";
              Request.url :=
                _base_url self ++ "/adsorbate-slab-relaxations/" ++ system_id
                  ++ "/configs";
              Request.kwargs :=
                {| Kwargs.params := Some (results_params config_ids fields);
                   Kwargs.data := None; Kwargs.headers := None |} |}])
  /\ (forall system_id,
        dispatched (delete_adsorbate_slab_relaxations self system_id adapter)
        = [{| Request.method := "DELETE";
              Request.url :=
                _base_url self ++ "/adsorbate-slab-relaxations/" ++ system_id;
              Request.kwargs := Kwargs.none |}]).
Proof.
  repeat split; intros.
  - unfold get_bulks. endpoint_dispatched.
  - unfold get_adsorbates. endpoint_dispatched.
  - unfold get_slabs. endpoint_dispatched.
  - unfold get_adsorbate_slab_configs. endpoint_dispatched.
  - unfold submit_adsorbate_slab_relaxations. endpoint_dispatched.
  - unfold get_adsorbate_slab_relaxations_request. endpoint_dispatched.
  - unfold get_adsorbate_slab_relaxations_results. endpoint_dispatched.
  - unfold delete_adsorbate_slab_relaxations. endpoint_dispatched.
Qed.

(** X10: no endpoint method catches or rewrites a failure of its request:
    whatever [_run_request] raises for the request of the route (one of the
    module's exceptions or any other), the endpoint raises the same. *)
Theorem endpoints_propagate_failure `{Collaborators} (self : Client)
    (adapter : Adapter) (r : Raised) :
  (outcome (_run_request (_base_url self ++ "/bulks") "GET" Kwargs.none
              adapter) = Raise r ->
   outcome (get_bulks self adapter) = Raise r)
  /\ (outcome (_run_request (_base_url self ++ "/adsorbates") "GET"
                 Kwargs.none adapter) = Raise r ->
      outcome (get_adsorbates self adapter) = Raise r)
  /\ (forall bulk,
        outcome
          (_run_request (_base_url self ++ "/slabs") "POST"
             {| Kwargs.params := None;
                Kwargs.data :=
                  Some (json_dumps
                          (JDict [("bulk_src_id",
                                   JStr match bulk with
                                        | a_Bulk b => src_id b
                                        | a_str s => s
                                        end)]));
                Kwargs.headers := json_headers |} adapter) = Raise r ->
        outcome (get_slabs self bulk adapter) = Raise r)
  /\ (forall adsorbate slab,
        outcome
          (_run_request (_base_url self ++ "/adsorbate-slab-configs") "POST"
             {| Kwargs.params := None;
                Kwargs.data :=
                  Some (json_dumps
                          (JDict [("adsorbate", JStr adsorbate);
                                  ("slab", Slab_to_dict slab)]));
                Kwargs.headers := json_headers |} adapter) = Raise r ->
        outcome (get_adsorbate_slab_configs self adsorbate slab adapter)
        = Raise r)
  /\ (forall adsorbate adsorbate_configs bulk slab model ephemeral,
        outcome
          (_run_request (_base_url self ++ "/adsorbate-slab-relaxations")
             "POST"
             {| Kwargs.params := None;
                Kwargs.data :=
                  Some (json_dumps
                          (JDict
                             [("adsorbate", JStr adsorbate);
                              ("adsorbate_configs",
                               JList (map Atoms_to_dict adsorbate_configs));
                              ("bulk", Bulk_to_dict bulk);
                              ("slab", Slab_to_dict slab);
                              ("model", JStr (Model_str model));
                              ("ephemeral", JBool ephemeral)]));
                Kwargs.headers := json_headers |} adapter) = Raise r ->
        outcome
          (submit_adsorbate_slab_relaxations self adsorbate adsorbate_configs
             bulk slab model ephemeral adapter) = Raise r)
  /\ (forall system_id,
        outcome
          (_run_request
             (_base_url self ++ "/adsorbate-slab-relaxations/" ++ system_id)
             "GET" Kwargs.none adapter) = Raise r ->
        outcome
          (get_adsorbate_slab_relaxations_request self system_id adapter)
        = Raise r)
  /\ (forall system_id config_ids fields,
        outcome
          (_run_request
             (_base_url self ++ "/adsorbate-slab-relaxations/" ++ system_id
                ++ "/configs")
             "GET"
             {| Kwargs.params := Some (results_params config_ids fields);
                Kwargs.data := None; Kwargs.headers := None |} adapter)
        = Raise r ->
        outcome
          (get_adsorbate_slab_relaxations_results self system_id config_ids
             fields adapter) = Raise r)
  /\ (forall system_id,
        outcome
          (_run_request
             (_base_url self ++ "/adsorbate-slab-relaxations/" ++ system_id)
             "DELETE" Kwargs.none adapter) = Raise r ->
        outcome (delete_adsorbate_slab_relaxations self system_id adapter)
        = Raise r).
Proof.
  repeat split; intros; now apply outcome_bind_raise.
Qed.


(** X12: [delete_adsorbate_slab_relaxations] succeeds on every answer with
    a status code below 300: it makes the one DELETE request and returns
    [None], whatever the body of the response (empty, or not JSON). *)
Theorem delete_ignores_body `{Collaborators} (self : Client)
    (system_id : string) (adapter : Adapter) (response : Response.t) :
  adapter {| Request.method := "DELETE";
             Request.url :=
               _base_url self ++ "/adsorbate-slab-relaxations/" ++ system_id;
             Request.kwargs := Kwargs.none |} = inr response ->
  Response.status_code response < 300 ->
  delete_adsorbate_slab_relaxations self system_id adapter
  = {| dispatched :=
         [{| Request.method := "DELETE";
             Request.url :=
               _base_url self ++ "/adsorbate-slab-relaxations/" ++ system_id;
             Request.kwargs := Kwargs.none |}];
       outcome := Return tt |}.
Proof.
  intros Ha Hs.
  unfold delete_adsorbate_slab_relaxations, bind. run_request.
  rewrite Ha.
  destruct (300 <=? Response.status_code response) eqn:E300;
    [status_tests; lia | reflexivity].
Qed.

Lemma delete_ignores_body_witness :
  Response.status_code (Sample.response 204 [] "") < 300
  /\ delete_adsorbate_slab_relaxations (H := Sample.collaborators)
       Sample.client "sys1" (Sample.responds 204 [] "")
     = {| dispatched :=
            [{| Request.method := "DELETE";
                Request.url :=
                  "https://open-catalyst-api.metademolab.com/ocp/adsorbate-slab-relaxations/sys1";
                Request.kwargs := Kwargs.none |}];
          outcome := Return tt |}.
Proof.
  split; [simpl; lia|].
  apply (delete_ignores_body (H := Sample.collaborators) Sample.client "sys1"
           (Sample.responds 204 [] "") (Sample.response 204 [] ""));
    [reflexivity | simpl; lia].
Defined.

Lemma endpoints_propagate_failure_witness :
  outcome (_run_request (H := Sample.collaborators)
             (_base_url Sample.client ++ "/bulks") "GET" Kwargs.none
             (Sample.responds 500 [] "down"))
  = Raise (Api (RequestException "GET"
                  "https://open-catalyst-api.metademolab.com/ocp/bulks"
                  "Unexpected response code: 500. Response body: down"))
  /\ outcome (get_bulks (H := Sample.collaborators) Sample.client
                (Sample.responds 500 [] "down"))
     = Raise (Api (RequestException "GET"
                     "https://open-catalyst-api.metademolab.com/ocp/bulks"
                     "Unexpected response code: 500. Response body: down")).
Proof.
  split; [reflexivity|].
  destruct (endpoints_propagate_failure (H := Sample.collaborators)
              Sample.client (Sample.responds 500 [] "down")
              (Api (RequestException "GET"
                      "https://open-catalyst-api.metademolab.com/ocp/bulks"
                      "Unexpected response code: 500. Response body: down")))
    as [Hbulks _].
  apply Hbulks. reflexivity.
Defined.


(** ** The query parameters of the results route *)

(** X13: in the [params] dictionary of
    [get_adsorbate_slab_relaxations_results], the item [config_id] is the
    list [config_ids] itself when that list is given and not empty, and is
    missing otherwise, whatever [fields] is; likewise [field] for [fields];
    and the dictionary has no other key. *)
Theorem results_params_lookup (config_ids : option (list Z))
    (fields : option (list string)) :
  Dict.get "config_id" (results_params config_ids fields)
  = match config_ids with
    | Some (c :: l) => Some (IntList (c :: l))
    | _ => None
    end
  /\ Dict.get "field" (results_params config_ids fields)
     = match fields with
       | Some (f :: l) => Some (StrList (f :: l))
       | _ => None
       end
  /\ forall k, k <> "config_id" -> k <> "field" ->
               Dict.get k (results_params config_ids fields) = None.
Proof.
  repeat split.
  - now destruct config_ids as [[|c l]|], fields as [[|f l']|].
  - now destruct config_ids as [[|c l]|], fields as [[|f l']|].
  - intros k Hc Hf.
    apply String.eqb_neq in Hc, Hf.
    destruct config_ids as [[|c l]|], fields as [[|f l']|]; cbn;
      now rewrite ?Hc, ?Hf.
Qed.

(** ** The stored base URL *)

Section BaseUrlFacts.

Lemma rstrip_by_keeps (p : ascii -> bool) (s : string) (c : ascii) :
  p c = false ->
  PyStr.rstrip_by p (s ++ String c EmptyString) = s ++ String c EmptyString.
Proof.
  intros Hc. induction s as [|d s IH]; cbn [append PyStr.rstrip_by].
  - now rewrite Hc.
  - rewrite IH. now destruct s.
Qed.

Lemma string_last (s : string) :
  s = EmptyString \/ exists t c, s = t ++ String c EmptyString.
Proof.
  induction s as [|d s [->|(t & c & ->)]].
  - now left.
  - right. now exists EmptyString, d.
  - right. now exists (String d t), c.
Qed.

Lemma rstrip_by_idempotent (p : ascii -> bool) (s : string) :
  PyStr.rstrip_by p (PyStr.rstrip_by p s) = PyStr.rstrip_by p s.
Proof.
  destruct (string_last (PyStr.rstrip_by p s)) as [E|(t & c & E)].
  - now rewrite E.
  - rewrite E. apply rstrip_by_keeps.
    now apply (rstrip_by_no_trailing p s t c).
Qed.

End BaseUrlFacts.

(** X14: the constructor's normalisation is idempotent: building a client
    from the base URL that a client stores gives that client again. *)
Theorem init_idempotent (base_url : string) :
  __init__ (_base_url (__init__ base_url)) = __init__ base_url.
Proof.
  unfold __init__, PyStr.rstrip; cbn [_base_url].
  now rewrite rstrip_by_idempotent.
Qed.

(** X15: a base URL whose last character is not [/] is stored as it is:
    the constructor removes nothing else than trailing slashes, and slashes
    inside the URL are kept. *)
Theorem init_keeps_url_without_trailing_slash (s : string) (c : ascii) :
  c <> "/"%char ->
  _base_url (__init__ (s ++ String c EmptyString))
  = s ++ String c EmptyString.
Proof.
  intros Hc. unfold __init__, PyStr.rstrip; cbn [_base_url].
  apply rstrip_by_keeps. cbn.
  apply Ascii.eqb_neq in Hc. now rewrite Hc.
Qed.

Lemma init_keeps_url_without_trailing_slash_witness :
  "p"%char <> "/"%char
  /\ _base_url (__init__ ("http://h//oc" ++ String "p" EmptyString))
     = "http://h//oc" ++ String "p" EmptyString.
Proof.
  split; [discriminate|].
  apply (init_keeps_url_without_trailing_slash "http://h//oc" "p"%char).
  discriminate.
Defined.
